(** * todo-app-next: the todo page and its remote [todos] table

    A shallow embedding of [src/app/page.tsx] (the [Home] component with
    [fetchTodos], [addTodo], [toggleTodo], [deleteTodo]) and of
    [src/types/todo.ts], together with a relational model of the hosted
    [todos] table the page talks to through the Supabase query builder.

    Conventions.
    - A JavaScript string that is inspected by the code ([inputText], the
      [text] column) is a list of UTF-16 code units, so that
      [String.prototype.trim] can be written out; identifiers and messages,
      which the code only passes around, are [string]s.
    - Timestamps ([created_at], [updated_at], [new Date()]) are instants on
      a linear time line, written as [Z].
    - Every [await] runs to completion before the next event is handled:
      the handlers are modelled one at a time, each as a function on
      [World]. What the network and the server decide for one request
      (whether it fails, which id and which creation time the server
      assigns) is the [Conn] argument of that request. *)

From Stdlib Require Import ZArith NArith String List.
From stdpp Require Import base decidable option numbers list strings sorting.

Local Open Scope Z_scope.
Local Open Scope string_scope.
Local Open Scope list_scope.

(** ** Data model ([src/types/todo.ts] and the columns used in [page.tsx]) *)

Inductive TodoPriority := low | medium | high.

#[global] Instance TodoPriority_eq_dec : EqDecision TodoPriority.
Proof. solve_decision. Defined.

(** A JavaScript string as its UTF-16 code units. *)
Definition jsstring := list N.

(** A row of [todos] as [select('*')] returns it: the fields of the
    [Todo] interface plus the two columns [page.tsx] writes,
    [delete_flag] and [updated_at]. *)
Module Todo.
Record t := mk {
  id : string;
  text : jsstring;
  completed : bool;
  priority : TodoPriority;
  delete_flag : bool;
  created_at : Z;
  updated_at : Z
}.
End Todo.

(** The object literal passed to [insert] in [addTodo]: [id] and
    [created_at] are left to the server. *)
Module NewTodo.
Record t := mk {
  text : jsstring;
  completed : bool;
  priority : TodoPriority;
  delete_flag : bool;
  updated_at : Z
}.
End NewTodo.

(** The object literal passed to [update]: only the listed columns are
    written. *)
Module Patch.
Record t := mk {
  completed : option bool;
  delete_flag : option bool;
  updated_at : option Z
}.
End Patch.

(** ** The remote store *)

Module Supabase.

Record PostgrestError := mkError { message : string }.

(** The [{ data, error }] object every request resolves to. *)
Record Response (A : Type) := mkResponse {
  data : option A;
  error : option PostgrestError
}.
Arguments mkResponse {A} _ _.
Arguments data {A} _.
Arguments error {A} _.

(** What the network and the server decide for one request. *)
Record Conn := mkConn {
  fault : option PostgrestError;   (* [Some e]: the request fails with [e] *)
  new_id : nat -> string;          (* id given to the k-th inserted row *)
  server_now : Z                   (* [created_at] given to inserted rows *)
}.

(** The two filters of [page.tsx]: [.eq('delete_flag', b)] and
    [.eq('id', i)]. *)
Inductive Filter :=
| EqDeleteFlag (b : bool)
| EqId (i : string).

Definition matches (f : Filter) (r : Todo.t) : bool :=
  match f with
  | EqDeleteFlag b => bool_decide (Todo.delete_flag r = b)
  | EqId i => bool_decide (Todo.id r = i)
  end.

(** [.order('created_at', { ascending: false })]: [a] may stand before
    [b] when it was created no earlier. *)
Definition newer_first (a b : Todo.t) : Prop :=
  Todo.created_at b <= Todo.created_at a.

#[global] Instance newer_first_dec : RelDecision newer_first.
Proof. intros a b. unfold newer_first. apply _. Defined.

(** Modelled from the spec: the query engine behind
    [.select('*').eq(..).order('created_at', { ascending: false })] is
    the hosted service, not code of this repository. Following the
    spec's "filter-by-equality" and "order-by on created_at", a select
    keeps the rows that match the filter and sorts them, newest first. *)
Definition select_where (f : Filter) (tbl : list Todo.t) : list Todo.t :=
  merge_sort newer_first (List.filter (matches f) tbl).

Definition apply_patch (p : Patch.t) (r : Todo.t) : Todo.t :=
  Todo.mk (Todo.id r) (Todo.text r)
          (default (Todo.completed r) (Patch.completed p))
          (Todo.priority r)
          (default (Todo.delete_flag r) (Patch.delete_flag p))
          (Todo.created_at r)
          (default (Todo.updated_at r) (Patch.updated_at p)).

(** Modelled from the spec: [.update(p).eq(..)] on the hosted service
    rewrites the patched columns of every matching row and leaves the
    other rows as they are; with no matching row nothing is written. *)
Definition update_where (p : Patch.t) (f : Filter) (tbl : list Todo.t)
  : list Todo.t :=
  (fun r => if matches f r then apply_patch p r else r) <$> tbl.

Definition create (c : Conn) (k : nat) (n : NewTodo.t) : Todo.t :=
  Todo.mk (new_id c k) (NewTodo.text n) (NewTodo.completed n)
          (NewTodo.priority n) (NewTodo.delete_flag n)
          (server_now c) (NewTodo.updated_at n).

(** Modelled from the spec: [.insert(rows).select()] on the hosted
    service stores one new row per element, with [id] and [created_at]
    assigned by the server, and returns the stored rows. *)
Definition created_rows (c : Conn) (ns : list NewTodo.t) : list Todo.t :=
  imap (create c) ns.

(** A request that fails is answered with [error] and no [data], and
    leaves the table alone. *)
Definition select_eq_order (c : Conn) (f : Filter) (tbl : list Todo.t)
  : Response (list Todo.t) * list Todo.t :=
  match fault c with
  | Some e => (mkResponse None (Some e), tbl)
  | None => (mkResponse (Some (select_where f tbl)) None, tbl)
  end.

Definition insert_select (c : Conn) (ns : list NewTodo.t) (tbl : list Todo.t)
  : Response (list Todo.t) * list Todo.t :=
  match fault c with
  | Some e => (mkResponse None (Some e), tbl)
  | None => (mkResponse (Some (created_rows c ns)) None,
             tbl ++ created_rows c ns)
  end.

(** An update without [.select()] resolves with [data: null]. *)
Definition update_eq (c : Conn) (p : Patch.t) (f : Filter) (tbl : list Todo.t)
  : Response (list Todo.t) * list Todo.t :=
  match fault c with
  | Some e => (mkResponse None (Some e), tbl)
  | None => (mkResponse None None, update_where p f tbl)
  end.

End Supabase.

(** ** The page: React state, the table, and what the user gets to see *)

(** A request as it leaves the page. *)
Inductive Request :=
| ReqSelect (f : Supabase.Filter)
| ReqInsert (rows : list NewTodo.t)
| ReqUpdate (p : Patch.t) (f : Supabase.Filter).

Record World := mkWorld {
  todos : list Todo.t;                 (* useState<Todo[]>([]) *)
  inputText : jsstring;                (* useState('') *)
  priority : TodoPriority;             (* useState<TodoPriority>('medium') *)
  table : list Todo.t;                 (* the remote [todos] table *)
  requests : list Request;             (* requests sent so far *)
  console : list (string * string);    (* console.error(label, message) *)
  alerts : list string                 (* alert(message) *)
}.

Definition setTodos (l : list Todo.t) (w : World) : World :=
  mkWorld l (inputText w) (priority w) (table w) (requests w) (console w)
          (alerts w).

Definition setInputText (s : jsstring) (w : World) : World :=
  mkWorld (todos w) s (priority w) (table w) (requests w) (console w)
          (alerts w).

Definition setPriority (p : TodoPriority) (w : World) : World :=
  mkWorld (todos w) (inputText w) p (table w) (requests w) (console w)
          (alerts w).

Definition console_error (label msg : string) (w : World) : World :=
  mkWorld (todos w) (inputText w) (priority w) (table w) (requests w)
          (console w ++ [(label, msg)]) (alerts w).

Definition alert (msg : string) (w : World) : World :=
  mkWorld (todos w) (inputText w) (priority w) (table w) (requests w)
          (console w) (alerts w ++ [msg]).

(** Sending a request: it is recorded, and the table becomes what the
    store made of it. *)
Definition sent (q : Request) (tbl' : list Todo.t) (w : World) : World :=
  mkWorld (todos w) (inputText w) (priority w) tbl' (requests w ++ [q])
          (console w) (alerts w).

(** The state the component is mounted with, over a given table. *)
Definition mount (tbl : list Todo.t) : World :=
  mkWorld [] [] medium tbl [] [] [].

(** *** [fetchTodos] *)

Definition active : Supabase.Filter := Supabase.EqDeleteFlag false.

(** [listActive] of the spec: the rows the query of [fetchTodos] selects. *)
Definition listActive (tbl : list Todo.t) : list Todo.t :=
  Supabase.select_where active tbl.

Definition fetchTodos (c : Supabase.Conn) (w : World) : World :=
  let '(r, tbl') := Supabase.select_eq_order c active (table w) in
  let w1 := sent (ReqSelect active) tbl' w in
  match Supabase.error r with
  | Some e =>
      alert "获取任务失败，请检查网络连接"
        (console_error "❌ 获取任务失败:" (Supabase.message e) w1)
  | None => setTodos (default [] (Supabase.data r)) w1
  end.

(** *** [String.prototype.trim]

    ECMAScript strips WhiteSpace and LineTerminator code points from both
    ends: TAB, LF, VT, FF, CR, SP, NBSP, ZWNBSP, LS, PS and the
    space separators (category Zs). *)
Definition is_white_space (c : N) : bool :=
  match c with
  | 0x09 | 0x0A | 0x0B | 0x0C | 0x0D | 0x20 | 0xA0 | 0x1680
  | 0x2028 | 0x2029 | 0x202F | 0x205F | 0x3000 | 0xFEFF => true
  | _ => (0x2000 <=? c)%N && (c <=? 0x200A)%N
  end%N.

Fixpoint trimStart (s : jsstring) : jsstring :=
  match s with
  | [] => []
  | c :: s' => if is_white_space c then trimStart s' else s
  end.

Definition trimEnd (s : jsstring) : jsstring :=
  reverse (trimStart (reverse s)).

Definition trim (s : jsstring) : jsstring := trimEnd (trimStart s).

(** Truthiness of a string: only the empty string is falsy. *)
Definition truthy (s : jsstring) : bool :=
  match s with [] => false | _ :: _ => true end.

(** *** [addTodo] *)

Definition addTodo (now : Z) (c : Supabase.Conn) (w : World) : World :=
  if negb (truthy (trim (inputText w))) then w else
  let rows :=
    [ NewTodo.mk (inputText w) false (priority w) false now ] in
  let '(r, tbl') := Supabase.insert_select c rows (table w) in
  let w1 := sent (ReqInsert rows) tbl' w in
  match Supabase.error r with
  | Some e =>
      alert "添加失败，请重试"
        (console_error "❌ 添加任务失败:" (Supabase.message e) w1)
  | None =>
      match Supabase.data r with
      | Some d => setInputText [] (setTodos (d ++ todos w) w1)
      | None => w1   (* spreading [null] throws: no setter is reached *)
      end
  end.

(** *** [toggleTodo]

    [c] answers the update, [cf] the [fetchTodos] that follows it. *)
Definition toggleTodo (now : Z) (c cf : Supabase.Conn)
    (id : string) (currentCompleted : bool) (w : World) : World :=
  let p := Patch.mk (Some (negb currentCompleted)) None (Some now) in
  let '(r, tbl') := Supabase.update_eq c p (Supabase.EqId id) (table w) in
  let w1 := sent (ReqUpdate p (Supabase.EqId id)) tbl' w in
  match Supabase.error r with
  | Some e => console_error "❌ 更新任务失败:" (Supabase.message e) w1
  | None => fetchTodos cf w1
  end.

(** *** [deleteTodo] *)

Definition deleteTodo (now : Z) (c cf : Supabase.Conn)
    (id : string) (w : World) : World :=
  let p := Patch.mk None (Some true) (Some now) in
  let '(r, tbl') := Supabase.update_eq c p (Supabase.EqId id) (table w) in
  let w1 := sent (ReqUpdate p (Supabase.EqId id)) tbl' w in
  match Supabase.error r with
  | Some e => console_error "❌ 删除任务失败:" (Supabase.message e) w1
  | None => fetchTodos cf w1
  end.

(** *** The rendered list

    Each rendered todo carries the handler
    [onClick={() => toggleTodo(todo.id, todo.completed)}]: a click on the
    entry with id [id] calls [toggleTodo] with the [completed] value the
    local list holds for it. With no such entry there is nothing to
    click. *)
Definition shown (id : string) (w : World) : option Todo.t :=
  List.find (fun t => bool_decide (Todo.id t = id)) (todos w).

Definition toggle (now : Z) (c cf : Supabase.Conn) (id : string) (w : World)
  : World :=
  match shown id w with
  | Some t => toggleTodo now c cf (Todo.id t) (Todo.completed t) w
  | None => w
  end.

(** The statistics line: [todos.filter(t => !t.completed).length] and
    [todos.filter(t => t.completed).length]. *)
Definition pending (w : World) : nat :=
  length (List.filter (fun t => negb (Todo.completed t)) (todos w)).

Definition finished (w : World) : nat :=
  length (List.filter (fun t => Todo.completed t) (todos w)).

(** *** The requests of the specification

    [setCompleted] and [softDelete] name the two patches [toggleTodo] and
    [deleteTodo] send. *)
Definition setCompleted (b : bool) (now : Z) : Patch.t :=
  Patch.mk (Some b) None (Some now).

Definition softDelete (now : Z) : Patch.t :=
  Patch.mk None (Some true) (Some now).

(** The row the server stores for a submission. *)
Definition submitted (now : Z) (c : Supabase.Conn) (w : World) : Todo.t :=
  Todo.mk (Supabase.new_id c 0) (inputText w) false (priority w) false
          (Supabase.server_now c) now.

(** *** Properties named by the specification

    A text is blank when it is empty or made of white space only. *)
Definition blank (s : jsstring) : bool := forallb is_white_space s.

(** [id] is present in the remote store. *)
Definition present (id : string) (tbl : list Todo.t) : Prop :=
  id ∈ Todo.id <$> tbl.

(** The local list shows [id] with the [completed] value the store holds
    for it. *)
Definition in_sync (id : string) (w : World) : Prop :=
  match shown id w with
  | Some t =>
      Forall (fun r => Todo.id r = id -> Todo.completed r = Todo.completed t)
             (table w)
  | None => False
  end.

(** "toggle(id) followed by a successful reload flips the [completed]
    field of the row matching [id]", read on the table before and after. *)
Definition toggle_flips_completed (now : Z) (c cf : Supabase.Conn)
    (id : string) (w : World) : Prop :=
  forall k r,
    table w !! k = Some r -> Todo.id r = id ->
    exists r', table (toggle now c cf id w) !! k = Some r' /\
               Todo.completed r' = negb (Todo.completed r).

(** ** The rest of the page: rendering and event handlers *)

(** The icon table of the component. *)
Definition priorityIcons (p : TodoPriority) : string :=
  match p with
  | high => "🔴"
  | medium => "🟡"
  | low => "🟢"
  end.

(** The icon in front of an entry:
    [todo.completed ? '✅' : priorityIcons[todo.priority]]. *)
Definition icon (t : Todo.t) : string :=
  if Todo.completed t then "✅" else priorityIcons (Todo.priority t).

(** The handlers bound to the [k]-th rendered entry:
    [onClick={() => toggleTodo(todo.id, todo.completed)}] on the label and
    [onClick={() => deleteTodo(todo.id)}] on the button. An index past the
    end of the list has no entry to click. *)
Definition clickTodo (k : nat) (now : Z) (c cf : Supabase.Conn) (w : World)
  : World :=
  match todos w !! k with
  | Some t => toggleTodo now c cf (Todo.id t) (Todo.completed t) w
  | None => w
  end.

Definition clickDelete (k : nat) (now : Z) (c cf : Supabase.Conn) (w : World)
  : World :=
  match todos w !! k with
  | Some t => deleteTodo now c cf (Todo.id t) w
  | None => w
  end.

(** [onKeyPress={(e) => e.key === 'Enter' && addTodo()}] *)
Definition keyPress (key : string) (now : Z) (c : Supabase.Conn) (w : World)
  : World :=
  if bool_decide (key = "Enter") then addTodo now c w else w.

(** What can happen to the page: the effect run on mount, the two
    [onChange] handlers, a key pressed in the input, and the three kinds
    of click. Each event carries the clock reading and the answers of the
    store that its handler meets. *)
Inductive Event :=
| Mounted (c : Supabase.Conn)
| ChangeInput (s : jsstring)
| ChangePriority (p : TodoPriority)
| KeyPress (key : string) (now : Z) (c : Supabase.Conn)
| ClickAdd (now : Z) (c : Supabase.Conn)
| ClickTodo (k : nat) (now : Z) (c cf : Supabase.Conn)
| ClickDelete (k : nat) (now : Z) (c cf : Supabase.Conn).

Definition handle (w : World) (e : Event) : World :=
  match e with
  | Mounted c => fetchTodos c w
  | ChangeInput s => setInputText s w
  | ChangePriority p => setPriority p w
  | KeyPress key now c => keyPress key now c w
  | ClickAdd now c => addTodo now c w
  | ClickTodo k now c cf => clickTodo k now c cf w
  | ClickDelete k now c cf => clickDelete k now c cf w
  end.

Definition run (es : list Event) (w : World) : World := foldl handle w es.

(** *** Properties of states, rows and requests used below *)

(** The local list is what a reload would bring. *)
Definition mirrors (w : World) : Prop := todos w = listActive (table w).

(** [r'] is a later state of the row [r]: the same [id], [text],
    [priority] and [created_at], and still deleted if it was. *)
Definition evolves (r r' : Todo.t) : Prop :=
  Todo.id r' = Todo.id r /\
  Todo.text r' = Todo.text r /\
  Todo.priority r' = Todo.priority r /\
  Todo.created_at r' = Todo.created_at r /\
  (Todo.delete_flag r = true -> Todo.delete_flag r' = true).

(** The requests the page is meant to send: reads of the active rows,
    inserts of one open, undeleted row with a text that is not blank, and
    updates addressed by id that stamp [updated_at]. *)
Definition well_formed (q : Request) : Prop :=
  match q with
  | ReqSelect f => f = active
  | ReqInsert rows =>
      exists n, rows = [n] /\ blank (NewTodo.text n) = false /\
                NewTodo.completed n = false /\ NewTodo.delete_flag n = false
  | ReqUpdate p f =>
      (exists i, f = Supabase.EqId i) /\ Patch.updated_at p <> None /\
      Patch.delete_flag p <> Some false
  end.


(** Every row of [tbl] is still there in [tbl'], at its position, as a
    later state of itself. *)
Definition rows_evolve (tbl tbl' : list Todo.t) : Prop :=
  forall k r, tbl !! k = Some r ->
              exists r', tbl' !! k = Some r' /\ evolves r r'.






(** The filter [t => t.id !== i] on rows. *)
Definition other_than (i : string) (t : Todo.t) : bool :=
  negb (bool_decide (Todo.id t = i)).

(** ** Concrete data used in the examples *)

Definition up : Supabase.Conn :=
  Supabase.mkConn None (fun _ => "id-new") 100.

Definition down : Supabase.Conn :=
  Supabase.mkConn (Some (Supabase.mkError "Failed to fetch"))
                  (fun _ => "id-new") 100.

(** "Buy milk" *)
Definition buy_milk : jsstring := [66; 117; 121; 32; 109; 105; 108; 107]%N.

Definition milk : Todo.t := Todo.mk "id-1" buy_milk false medium false 10 10.
Definition eggs : Todo.t := Todo.mk "id-2" [101; 103; 103; 115]%N true high false 20 25.
Definition gone : Todo.t := Todo.mk "id-3" [120]%N false low true 30 40.

(** "  Buy milk " with white space on both sides. *)
Definition padded : jsstring := ([32; 32] ++ buy_milk ++ [32])%N.

Definition typing (s : jsstring) (p : TodoPriority) : World :=
  setPriority p (setInputText s (fetchTodos up (mount [eggs]))).

(** The scenario of the specification: on an empty table, submit
    "Buy milk" with priority medium, toggle it, remove it. *)
Definition step1 : World :=
  addTodo 50 up (setInputText buy_milk (fetchTodos up (mount []))).
Definition step2 : World := toggle 60 up up "id-new" step1.
Definition step3 : World := deleteTodo 70 up up "id-new" step2.

(** The page after its initial load of a one-row table, and the same
    page after a toggle whose update went through and whose reload
    failed. *)
Definition loaded : World := fetchTodos up (mount [milk]).

Definition stale : World := toggle 50 up down "id-1" loaded.

(** ** Facts about the store *)

Section Store.
Import Supabase.

#[global] Instance newer_first_total : Total newer_first.
Proof. intros a b. unfold newer_first. lia. Qed.

#[global] Instance newer_first_trans : Transitive newer_first.
Proof. intros a b c. unfold newer_first. lia. Qed.

Lemma select_where_elem (f : Filter) (tbl : list Todo.t) (r : Todo.t) :
  r ∈ select_where f tbl <-> r ∈ tbl /\ matches f r = true.
Proof.
  unfold select_where.
  rewrite merge_sort_Permutation, !list_elem_of_In.
  apply filter_In.
Qed.

Lemma select_where_sorted (f : Filter) (tbl : list Todo.t) :
  StronglySorted newer_first (select_where f tbl).
Proof. unfold select_where. apply StronglySorted_merge_sort; apply _. Qed.

(** In a strongly sorted list an earlier position is related to every
    later one. *)
Lemma StronglySorted_positions {A} (R : relation A) (l : list A) :
  StronglySorted R l ->
  forall i j a b, (i < j)%nat -> l !! i = Some a -> l !! j = Some b -> R a b.
Proof.
  induction 1 as [|x l Hl IH Hx]; intros i j a b Hij Hi Hj.
  - discriminate.
  - destruct j as [|j]; [lia|]. simpl in Hj.
    destruct i as [|i]; simpl in Hi.
    + injection Hi as <-.
      rewrite Forall_forall in Hx. apply Hx.
      apply list_elem_of_lookup. eauto.
    + apply (IH i j); [lia | done | done].
Qed.

Lemma update_where_lookup (p : Patch.t) (f : Filter) (tbl : list Todo.t)
    (k : nat) (r : Todo.t) :
  tbl !! k = Some r ->
  update_where p f tbl !! k
  = Some (if matches f r then apply_patch p r else r).
Proof.
  intros Hk. unfold update_where. rewrite list_lookup_fmap, Hk. done.
Qed.

Lemma update_where_length (p : Patch.t) (f : Filter) (tbl : list Todo.t) :
  length (update_where p f tbl) = length tbl.
Proof. unfold update_where. apply length_fmap. Qed.

Lemma update_where_ids (p : Patch.t) (f : Filter) (tbl : list Todo.t) :
  Todo.id <$> update_where p f tbl = Todo.id <$> tbl.
Proof.
  unfold update_where. rewrite <- list_fmap_compose.
  apply list_fmap_ext. intros _ r _. simpl. by destruct (matches f r).
Qed.

Lemma update_where_no_match (p : Patch.t) (f : Filter) (tbl : list Todo.t) :
  Forall (fun r => matches f r = false) tbl ->
  update_where p f tbl = tbl.
Proof.
  intros H. unfold update_where.
  rewrite <- (list_fmap_id tbl) at 2.
  apply Forall_fmap_ext_1. eapply Forall_impl; [exact H|].
  intros r Hr. simpl. by rewrite Hr.
Qed.

Lemma matches_EqId (i : string) (r : Todo.t) :
  matches (EqId i) r = true <-> Todo.id r = i.
Proof. simpl. rewrite bool_decide_eq_true. done. Qed.

Lemma matches_EqId_false (i : string) (r : Todo.t) :
  matches (EqId i) r = false <-> Todo.id r <> i.
Proof. simpl. rewrite bool_decide_eq_false. done. Qed.

Lemma matches_active (r : Todo.t) :
  matches active r = true <-> Todo.delete_flag r = false.
Proof. unfold active. simpl. rewrite bool_decide_eq_true. done. Qed.

End Store.

(** ** What each handler does when its requests succeed *)

Lemma fetchTodos_ok (c : Supabase.Conn) (w : World) :
  Supabase.fault c = None ->
  fetchTodos c w
  = setTodos (listActive (table w)) (sent (ReqSelect active) (table w) w).
Proof.
  intros Hc. unfold fetchTodos, Supabase.select_eq_order. rewrite Hc. done.
Qed.

Lemma fetchTodos_failed (c : Supabase.Conn) (e : Supabase.PostgrestError)
    (w : World) :
  Supabase.fault c = Some e ->
  fetchTodos c w
  = alert "获取任务失败，请检查网络连接"
      (console_error "❌ 获取任务失败:" (Supabase.message e)
         (sent (ReqSelect active) (table w) w)).
Proof.
  intros Hc. unfold fetchTodos, Supabase.select_eq_order. rewrite Hc. done.
Qed.

(** ** C1, C2: what [fetchTodos] brings back *)

(** C1. Whatever the remote table holds, the rows a successful
    [fetchTodos] puts into the local list are rows of the table whose
    [delete_flag] is false: no row with [delete_flag = true] is ever
    returned. *)
Theorem fetchTodos_never_returns_deleted
    (c : Supabase.Conn) (w : World) (r : Todo.t) :
  Supabase.fault c = None ->
  r ∈ todos (fetchTodos c w) ->
  r ∈ table w /\ Todo.delete_flag r = false.
Proof.
  intros Hc. rewrite (fetchTodos_ok c w Hc). simpl.
  unfold listActive. rewrite select_where_elem, matches_active. done.
Qed.

Lemma fetchTodos_never_returns_deleted_witness :
  Supabase.fault up = None /\
  milk ∈ todos (fetchTodos up (mount [milk; eggs; gone])) /\
  (milk ∈ table (mount [milk; eggs; gone]) /\ Todo.delete_flag milk = false).
Proof.
  split; [reflexivity|].
  assert (H : milk ∈ todos (fetchTodos up (mount [milk; eggs; gone])))
    by (vm_compute; apply list_elem_of_In; simpl; tauto).
  split; [exact H|].
  exact (fetchTodos_never_returns_deleted up (mount [milk; eggs; gone]) milk
           eq_refl H).
Defined.

(** C2. The list a successful [fetchTodos] returns is ordered by
    [created_at], newest first: whenever [a] and [b] are returned and
    [a] was created later than [b], [a] stands before [b]. *)
Theorem fetchTodos_newest_first
    (c : Supabase.Conn) (w : World) (i j : nat) (a b : Todo.t) :
  Supabase.fault c = None ->
  todos (fetchTodos c w) !! i = Some a ->
  todos (fetchTodos c w) !! j = Some b ->
  Todo.created_at a > Todo.created_at b ->
  (i < j)%nat.
Proof.
  intros Hc. rewrite (fetchTodos_ok c w Hc). simpl. intros Hi Hj Hab.
  destruct (decide (i < j)%nat) as [|Hge]; [done|]. exfalso.
  destruct (decide (i = j)) as [->|Hne].
  - rewrite Hi in Hj. injection Hj as ->. lia.
  - assert (Hb : Supabase.newer_first b a).
    { apply (StronglySorted_positions _ _
               (select_where_sorted active (table w)) j i); [lia|done|done]. }
    unfold Supabase.newer_first in Hb. lia.
Qed.

Lemma fetchTodos_newest_first_witness :
  Supabase.fault up = None /\
  todos (fetchTodos up (mount [milk; eggs; gone])) !! 0%nat = Some eggs /\
  todos (fetchTodos up (mount [milk; eggs; gone])) !! 1%nat = Some milk /\
  Todo.created_at eggs > Todo.created_at milk /\
  (0 < 1)%nat.
Proof.
  repeat split; try reflexivity.
  apply (fetchTodos_newest_first up (mount [milk; eggs; gone]) 0 1 eggs milk);
    reflexivity.
Defined.

(** ** [trim] and blank texts *)

Lemma trimStart_blank (s : jsstring) :
  blank s = true -> trimStart s = [].
Proof.
  induction s as [|ch s IH]; simpl; [done|].
  destruct (is_white_space ch); simpl; [exact IH | discriminate].
Qed.

Lemma trimStart_nil_blank (s : jsstring) :
  trimStart s = [] -> blank s = true.
Proof.
  induction s as [|ch s IH]; simpl; [done|].
  destruct (is_white_space ch); simpl; [exact IH | discriminate].
Qed.

Lemma trimStart_head (s t : jsstring) (ch : N) :
  trimStart s = ch :: t -> is_white_space ch = false.
Proof.
  induction s as [|x s IH]; simpl; [discriminate|].
  destruct (is_white_space x) eqn:Hx; [exact IH|].
  intros [= <- _]. exact Hx.
Qed.

Lemma blank_reverse (s : jsstring) : blank (reverse s) = true -> blank s = true.
Proof.
  unfold blank. rewrite !forallb_forall. intros H x Hx.
  apply H. apply list_elem_of_In. apply elem_of_reverse.
  by apply list_elem_of_In.
Qed.

Lemma trim_blank (s : jsstring) : blank s = true -> trim s = [].
Proof.
  intros H. unfold trim. rewrite (trimStart_blank s H). reflexivity.
Qed.

Lemma trim_nil_blank (s : jsstring) : trim s = [] -> blank s = true.
Proof.
  unfold trim, trimEnd. intros H.
  apply (f_equal reverse) in H.
  rewrite reverse_involutive, reverse_nil in H.
  apply trimStart_nil_blank, blank_reverse in H.
  apply trimStart_nil_blank.
  destruct (trimStart s) as [|ch t] eqn:Hs; [done|].
  apply trimStart_head in Hs. simpl in H. rewrite Hs in H. discriminate.
Qed.

(** [addTodo] returns early exactly on blank texts. *)
Lemma truthy_trim (s : jsstring) :
  truthy (trim s) = negb (blank s).
Proof.
  destruct (blank s) eqn:Hb.
  - by rewrite (trim_blank s Hb).
  - destruct (trim s) eqn:Ht; [|done].
    apply trim_nil_blank in Ht. congruence.
Qed.

(** ** [addTodo] *)

Lemma addTodo_ok (now : Z) (c : Supabase.Conn) (w : World) :
  trim (inputText w) <> [] ->
  Supabase.fault c = None ->
  addTodo now c w
  = setInputText []
      (setTodos (submitted now c w :: todos w)
         (sent (ReqInsert [NewTodo.mk (inputText w) false (priority w) false now])
               (table w ++ [submitted now c w]) w)).
Proof.
  intros Ht Hc. unfold addTodo, Supabase.insert_select.
  destruct (trim (inputText w)) as [|ch t]; [done|]. simpl.
  rewrite Hc. reflexivity.
Qed.

Lemma addTodo_failed (now : Z) (c : Supabase.Conn)
    (e : Supabase.PostgrestError) (w : World) :
  trim (inputText w) <> [] ->
  Supabase.fault c = Some e ->
  addTodo now c w
  = alert "添加失败，请重试"
      (console_error "❌ 添加任务失败:" (Supabase.message e)
         (sent (ReqInsert [NewTodo.mk (inputText w) false (priority w) false now])
               (table w) w)).
Proof.
  intros Ht Hc. unfold addTodo, Supabase.insert_select.
  destruct (trim (inputText w)) as [|ch t]; [done|]. simpl.
  rewrite Hc. reflexivity.
Qed.

(** C3. For a text whose trimmed form is not empty and any priority,
    [addTodo] sends one insert carrying one row with [completed = false],
    [delete_flag = false] and [updated_at] the current time; when the
    insert succeeds the table holds exactly that one row more, the
    returned row is put in front of the local list and the input field is
    cleared. *)
Theorem addTodo_inserts_one_row (now : Z) (c : Supabase.Conn) (w : World) :
  trim (inputText w) <> [] ->
  Supabase.fault c = None ->
  exists row,
    requests (addTodo now c w)
    = requests w
      ++ [ReqInsert [NewTodo.mk (inputText w) false (priority w) false now]] /\
    table (addTodo now c w) = table w ++ [row] /\
    Todo.completed row = false /\
    Todo.delete_flag row = false /\
    Todo.updated_at row = now /\
    Todo.priority row = priority w /\
    todos (addTodo now c w) = [row] ++ todos w /\
    inputText (addTodo now c w) = [].
Proof.
  intros Ht Hc. exists (submitted now c w).
  rewrite (addTodo_ok now c w Ht Hc). simpl. done.
Qed.

Lemma addTodo_inserts_one_row_witness :
  trim (inputText (typing buy_milk high)) <> [] /\
  Supabase.fault up = None /\
  exists row,
    table (addTodo 50 up (typing buy_milk high)) = [eggs; row] /\
    Todo.completed row = false /\
    Todo.priority row = high /\
    todos (addTodo 50 up (typing buy_milk high)) = [row; eggs].
Proof.
  split; [vm_compute; discriminate|]. split; [reflexivity|].
  destruct (addTodo_inserts_one_row 50 up (typing buy_milk high))
    as (row & _ & Htbl & Hc & _ & _ & Hp & Htodos & _);
    [vm_compute; discriminate | reflexivity |].
  exists row. repeat split; assumption.
Defined.

(** C4. On an empty or white-space-only text [addTodo] does nothing: no
    request is sent and the todo list, the input field, the priority and
    everything else stay as they were. *)
Theorem addTodo_blank_is_noop (now : Z) (c : Supabase.Conn) (w : World) :
  blank (inputText w) = true ->
  addTodo now c w = w.
Proof.
  intros Hb. unfold addTodo. rewrite truthy_trim, Hb. reflexivity.
Qed.

Lemma addTodo_blank_is_noop_witness :
  blank (inputText (typing [32; 9; 160; 8195]%N low)) = true /\
  addTodo 50 up (typing [32; 9; 160; 8195]%N low)
  = typing [32; 9; 160; 8195]%N low.
Proof.
  split; [reflexivity|].
  apply (addTodo_blank_is_noop 50 up (typing [32; 9; 160; 8195]%N low)).
  reflexivity.
Defined.

(** C9. The text that is stored is the raw input, white space at either
    end included: the inserted row's [text] is [inputText] itself, not
    its trimmed form. *)
Theorem addTodo_stores_raw_text (now : Z) (c : Supabase.Conn) (w : World) :
  trim (inputText w) <> [] ->
  Supabase.fault c = None ->
  exists row,
    table (addTodo now c w) = table w ++ [row] /\
    todos (addTodo now c w) = row :: todos w /\
    Todo.text row = inputText w.
Proof.
  intros Ht Hc. exists (submitted now c w).
  rewrite (addTodo_ok now c w Ht Hc). simpl. done.
Qed.

Lemma addTodo_stores_raw_text_witness :
  trim (inputText (typing padded low)) <> [] /\
  Supabase.fault up = None /\
  trim padded = buy_milk /\
  exists row,
    table (addTodo 50 up (typing padded low)) = [eggs; row] /\
    Todo.text row = padded.
Proof.
  split; [vm_compute; discriminate|]. split; [reflexivity|].
  split; [reflexivity|].
  destruct (addTodo_stores_raw_text 50 up (typing padded low))
    as (row & Htbl & _ & Htext); [vm_compute; discriminate | reflexivity |].
  exists row. split; assumption.
Defined.

(** C10. A successful [addTodo] clears the input field only: the
    selected priority keeps its value for the next submission. *)
Theorem addTodo_keeps_priority (now : Z) (c : Supabase.Conn) (w : World) :
  trim (inputText w) <> [] ->
  Supabase.fault c = None ->
  priority (addTodo now c w) = priority w /\
  inputText (addTodo now c w) = [].
Proof.
  intros Ht Hc. rewrite (addTodo_ok now c w Ht Hc). simpl. done.
Qed.

Lemma addTodo_keeps_priority_witness :
  trim (inputText (typing buy_milk high)) <> [] /\
  Supabase.fault up = None /\
  priority (addTodo 50 up (typing buy_milk high)) = high /\
  inputText (addTodo 50 up (typing buy_milk high)) = [].
Proof.
  split; [vm_compute; discriminate|]. split; [reflexivity|].
  apply (addTodo_keeps_priority 50 up (typing buy_milk high));
    [vm_compute; discriminate | reflexivity].
Defined.

(** ** [toggleTodo] and [deleteTodo] *)

Lemma toggleTodo_ok (now : Z) (c cf : Supabase.Conn) (id : string)
    (b : bool) (w : World) :
  Supabase.fault c = None ->
  toggleTodo now c cf id b w
  = fetchTodos cf
      (sent (ReqUpdate (setCompleted (negb b) now) (Supabase.EqId id))
            (Supabase.update_where (setCompleted (negb b) now)
                                   (Supabase.EqId id) (table w)) w).
Proof.
  intros Hc. unfold toggleTodo, Supabase.update_eq. rewrite Hc. done.
Qed.

Lemma toggleTodo_failed (now : Z) (c cf : Supabase.Conn)
    (e : Supabase.PostgrestError) (id : string) (b : bool) (w : World) :
  Supabase.fault c = Some e ->
  toggleTodo now c cf id b w
  = console_error "❌ 更新任务失败:" (Supabase.message e)
      (sent (ReqUpdate (setCompleted (negb b) now) (Supabase.EqId id))
            (table w) w).
Proof.
  intros Hc. unfold toggleTodo, Supabase.update_eq. rewrite Hc. done.
Qed.

Lemma deleteTodo_ok (now : Z) (c cf : Supabase.Conn) (id : string)
    (w : World) :
  Supabase.fault c = None ->
  deleteTodo now c cf id w
  = fetchTodos cf
      (sent (ReqUpdate (softDelete now) (Supabase.EqId id))
            (Supabase.update_where (softDelete now) (Supabase.EqId id)
                                   (table w)) w).
Proof.
  intros Hc. unfold deleteTodo, Supabase.update_eq. rewrite Hc. done.
Qed.

Lemma deleteTodo_failed (now : Z) (c cf : Supabase.Conn)
    (e : Supabase.PostgrestError) (id : string) (w : World) :
  Supabase.fault c = Some e ->
  deleteTodo now c cf id w
  = console_error "❌ 删除任务失败:" (Supabase.message e)
      (sent (ReqUpdate (softDelete now) (Supabase.EqId id)) (table w) w).
Proof.
  intros Hc. unfold deleteTodo, Supabase.update_eq. rewrite Hc. done.
Qed.

(** [fetchTodos] never writes to the table. *)
Lemma fetchTodos_table (c : Supabase.Conn) (w : World) :
  table (fetchTodos c w) = table w.
Proof.
  unfold fetchTodos, Supabase.select_eq_order.
  destruct (Supabase.fault c); reflexivity.
Qed.

(** What [fetchTodos] logs and shows depends on the request alone. *)
Lemma fetchTodos_console (c : Supabase.Conn) (q : Request)
    (tbl : list Todo.t) (w : World) :
  console (fetchTodos c (sent q tbl w)) = console (fetchTodos c w) /\
  alerts (fetchTodos c (sent q tbl w)) = alerts (fetchTodos c w).
Proof.
  unfold fetchTodos, Supabase.select_eq_order.
  destruct (Supabase.fault c); simpl; done.
Qed.

Lemma shown_id (id : string) (w : World) (t : Todo.t) :
  shown id w = Some t -> Todo.id t = id.
Proof.
  unfold shown. intros H. apply find_some in H as [_ H].
  by apply bool_decide_eq_true in H.
Qed.

(** C5, as the specification states it, fails: after an update whose
    reload failed the local list still holds the old [completed] value,
    and the next toggle, update and reload both succeeding, writes the
    value the store already has. *)
Lemma toggle_stale_view_does_not_flip :
  present "id-1" (table stale) /\
  Supabase.fault up = None /\
  ~ toggle_flips_completed 60 up up "id-1" stale.
Proof.
  split; [unfold present; compute_done|]. split; [reflexivity|].
  intros H.
  destruct (H 0%nat (Todo.mk "id-1" buy_milk true medium false 10 50)
              eq_refl eq_refl) as (r' & Hr' & Hflip).
  vm_compute in Hr'. injection Hr' as <-. discriminate Hflip.
Qed.

(** C5, amended. When the local list shows [id] with the [completed]
    value the store holds for it, [toggle] with a successful update and a
    successful reload flips [completed] in the row matching [id] and sets
    its [updated_at] to the current time; every other field of that row
    and every field of every other row is unchanged, no row is added or
    removed, and the local list is the active part of the new table. *)
Theorem toggle_flips_when_in_sync
    (now : Z) (c cf : Supabase.Conn) (id : string) (w : World) :
  Supabase.fault c = None ->
  Supabase.fault cf = None ->
  in_sync id w ->
  (forall k r,
     table w !! k = Some r ->
     table (toggle now c cf id w) !! k
     = Some (if bool_decide (Todo.id r = id)
             then Todo.mk (Todo.id r) (Todo.text r) (negb (Todo.completed r))
                          (Todo.priority r) (Todo.delete_flag r)
                          (Todo.created_at r) now
             else r)) /\
  length (table (toggle now c cf id w)) = length (table w) /\
  todos (toggle now c cf id w) = listActive (table (toggle now c cf id w)).
Proof.
  intros Hc Hcf Hsync. unfold in_sync in Hsync. unfold toggle.
  destruct (shown id w) as [t|] eqn:Ht; [|done].
  pose proof (shown_id _ _ _ Ht) as Hid.
  rewrite (toggleTodo_ok _ _ _ _ _ _ Hc), (fetchTodos_ok _ _ Hcf). simpl.
  split; [|split; [apply update_where_length | done]].
  intros k r Hk. rewrite (update_where_lookup _ _ _ _ _ Hk).
  f_equal. simpl. rewrite Hid.
  destruct (bool_decide (Todo.id r = id)) eqn:Hr; [|done].
  apply bool_decide_eq_true in Hr.
  rewrite Forall_forall in Hsync.
  rewrite <- (Hsync r); [done | | done].
  apply list_elem_of_lookup. eauto.
Qed.

Lemma toggle_flips_when_in_sync_witness :
  Supabase.fault up = None /\
  in_sync "id-1" loaded /\
  table (toggle 60 up up "id-1" loaded) !! 0%nat
  = Some (Todo.mk "id-1" buy_milk true medium false 10 60).
Proof.
  split; [reflexivity|].
  assert (Hs : in_sync "id-1" loaded) by (vm_compute; repeat constructor).
  split; [exact Hs|].
  exact (proj1 (toggle_flips_when_in_sync 60 up up "id-1" loaded
                  eq_refl eq_refl Hs) 0%nat milk eq_refl).
Defined.

(** C6. For an id present in the store, [deleteTodo] with a successful
    update and a successful reload leaves no entry with that id in the
    local list, while the store still holds the row, now with
    [delete_flag = true]: the table has the same rows, by id and
    position, as before. *)
Theorem deleteTodo_hides_and_keeps
    (now : Z) (c cf : Supabase.Conn) (id : string) (w : World) :
  Supabase.fault c = None ->
  Supabase.fault cf = None ->
  present id (table w) ->
  Forall (fun t => Todo.id t <> id) (todos (deleteTodo now c cf id w)) /\
  (exists r, r ∈ table (deleteTodo now c cf id w) /\ Todo.id r = id) /\
  Forall (fun r => Todo.id r = id -> Todo.delete_flag r = true)
         (table (deleteTodo now c cf id w)) /\
  Todo.id <$> table (deleteTodo now c cf id w) = Todo.id <$> table w.
Proof.
  intros Hc Hcf Hp.
  rewrite (deleteTodo_ok _ _ _ _ _ Hc), (fetchTodos_ok _ _ Hcf). simpl.
  assert (Hflag : Forall (fun r => Todo.id r = id -> Todo.delete_flag r = true)
            (Supabase.update_where (softDelete now) (Supabase.EqId id)
                                   (table w))).
  { unfold Supabase.update_where. apply Forall_fmap, Forall_forall.
    intros r _. simpl.
    destruct (bool_decide (Todo.id r = id)) eqn:Hr; simpl; [done|].
    apply bool_decide_eq_false in Hr. done. }
  split; [|split; [|split]].
  - apply Forall_forall. intros t Hin Hid.
    unfold listActive in Hin.
    apply select_where_elem in Hin as [Hin Hact].
    apply matches_active in Hact.
    rewrite Forall_forall in Hflag. rewrite (Hflag t Hin Hid) in Hact.
    discriminate.
  - unfold present in Hp. rewrite <- (update_where_ids (softDelete now)
      (Supabase.EqId id)) in Hp.
    apply list_elem_of_fmap in Hp as (r & -> & Hr). eauto.
  - exact Hflag.
  - apply update_where_ids.
Qed.

Lemma deleteTodo_hides_and_keeps_witness :
  Supabase.fault up = None /\
  present "id-1" (table loaded) /\
  todos (deleteTodo 60 up up "id-1" loaded) = [] /\
  Todo.id <$> table (deleteTodo 60 up up "id-1" loaded) = ["id-1"].
Proof.
  split; [reflexivity|].
  assert (Hp : present "id-1" (table loaded)) by (unfold present; compute_done).
  split; [exact Hp|].
  split; [reflexivity|].
  exact (proj2 (proj2 (proj2
    (deleteTodo_hides_and_keeps 60 up up "id-1" loaded eq_refl eq_refl Hp)))).
Defined.

(** C7 on the code: when the update of [toggleTodo] or of [deleteTodo]
    fails, the failure is written to the console and nothing is shown to
    the user. *)
Theorem toggleTodo_failure_is_not_alerted :
  console (toggleTodo 60 down up "id-1" false loaded)
  = [("❌ 更新任务失败:", "Failed to fetch")] /\
  alerts (toggleTodo 60 down up "id-1" false loaded) = [] /\
  console (deleteTodo 60 down up "id-1" loaded)
  = [("❌ 删除任务失败:", "Failed to fetch")] /\
  alerts (deleteTodo 60 down up "id-1" loaded) = [].
Proof. repeat split. Qed.

(** The two sibling handlers do both: log and alert. *)
Lemma fetchTodos_failure_is_alerted (c : Supabase.Conn)
    (e : Supabase.PostgrestError) (w : World) :
  Supabase.fault c = Some e ->
  console (fetchTodos c w)
  = console w ++ [("❌ 获取任务失败:", Supabase.message e)] /\
  alerts (fetchTodos c w) = alerts w ++ ["获取任务失败，请检查网络连接"].
Proof. intros Hc. rewrite (fetchTodos_failed c e w Hc). done. Qed.

Lemma addTodo_failure_is_alerted (now : Z) (c : Supabase.Conn)
    (e : Supabase.PostgrestError) (w : World) :
  trim (inputText w) <> [] ->
  Supabase.fault c = Some e ->
  console (addTodo now c w)
  = console w ++ [("❌ 添加任务失败:", Supabase.message e)] /\
  alerts (addTodo now c w) = alerts w ++ ["添加失败，请重试"] /\
  todos (addTodo now c w) = todos w /\
  inputText (addTodo now c w) = inputText w.
Proof. intros Ht Hc. rewrite (addTodo_failed now c e w Ht Hc). done. Qed.

Lemma update_failure_is_only_logged (now : Z) (c cf : Supabase.Conn)
    (e : Supabase.PostgrestError) (id : string) (b : bool) (w : World) :
  Supabase.fault c = Some e ->
  console (toggleTodo now c cf id b w)
  = console w ++ [("❌ 更新任务失败:", Supabase.message e)] /\
  alerts (toggleTodo now c cf id b w) = alerts w /\
  console (deleteTodo now c cf id w)
  = console w ++ [("❌ 删除任务失败:", Supabase.message e)] /\
  alerts (deleteTodo now c cf id w) = alerts w.
Proof.
  intros Hc.
  rewrite (toggleTodo_failed _ _ _ e _ _ _ Hc),
          (deleteTodo_failed _ _ _ e _ _ Hc). done.
Qed.

(** C8. For an id that no row of the store carries, the update of
    [toggleTodo] and the update of [deleteTodo] succeed without an error
    and leave the table exactly as it was; nothing is logged for them. *)
Theorem update_of_missing_id_is_noop
    (now : Z) (c cf : Supabase.Conn) (id : string) (b : bool) (w : World) :
  ~ present id (table w) ->
  Supabase.fault c = None ->
  Supabase.update_eq c (setCompleted (negb b) now) (Supabase.EqId id) (table w)
  = (Supabase.mkResponse None None, table w) /\
  Supabase.update_eq c (softDelete now) (Supabase.EqId id) (table w)
  = (Supabase.mkResponse None None, table w) /\
  table (toggleTodo now c cf id b w) = table w /\
  table (deleteTodo now c cf id w) = table w /\
  console (toggleTodo now c cf id b w) = console (fetchTodos cf w) /\
  console (deleteTodo now c cf id w) = console (fetchTodos cf w).
Proof.
  intros Hp Hc.
  assert (Hno : forall p, Supabase.update_where p (Supabase.EqId id) (table w)
                          = table w).
  { intros p. apply update_where_no_match, Forall_forall.
    intros r Hr. apply matches_EqId_false. intros Hid.
    apply Hp. unfold present. apply list_elem_of_fmap. eauto. }
  rewrite (toggleTodo_ok _ _ _ _ _ _ Hc), (deleteTodo_ok _ _ _ _ _ Hc).
  unfold Supabase.update_eq. rewrite Hc, !Hno, !fetchTodos_table. simpl.
  repeat split; apply fetchTodos_console.
Qed.

Lemma update_of_missing_id_is_noop_witness :
  ~ present "id-9" (table loaded) /\
  Supabase.fault up = None /\
  table (toggleTodo 60 up up "id-9" false loaded) = table loaded /\
  table (deleteTodo 60 up up "id-9" loaded) = table loaded.
Proof.
  assert (Hp : ~ present "id-9" (table loaded)) by (unfold present; compute_done).
  split; [exact Hp|]. split; [reflexivity|].
  pose proof (update_of_missing_id_is_noop 60 up up "id-9" false loaded
                Hp eq_refl) as (_ & _ & Ht & Hd & _).
  split; [exact Ht | exact Hd].
Defined.

(** ** No handler removes a row *)

Lemma handlers_never_remove_rows
    (now : Z) (c cf : Supabase.Conn) (id : string) (b : bool) (w : World) :
  Todo.id <$> table w `prefix_of` Todo.id <$> table (fetchTodos c w) /\
  Todo.id <$> table w `prefix_of` Todo.id <$> table (addTodo now c w) /\
  Todo.id <$> table w `prefix_of` Todo.id <$> table (toggleTodo now c cf id b w) /\
  Todo.id <$> table w `prefix_of` Todo.id <$> table (deleteTodo now c cf id w).
Proof.
  repeat split.
  - by rewrite fetchTodos_table.
  - unfold addTodo, Supabase.insert_select.
    destruct (truthy (trim (inputText w))); simpl; [|done].
    destruct (Supabase.fault c); simpl; [done|].
    rewrite fmap_app. by apply prefix_app_r.
  - unfold toggleTodo, Supabase.update_eq.
    destruct (Supabase.fault c); simpl; [done|].
    by rewrite fetchTodos_table; simpl; rewrite update_where_ids.
  - unfold deleteTodo, Supabase.update_eq.
    destruct (Supabase.fault c); simpl; [done|].
    by rewrite fetchTodos_table; simpl; rewrite update_where_ids.
Qed.

(** ** The scenario of the specification *)

Example scenario_buy_milk :
  (length (todos step1), pending step1, finished step1) = (1, 1, 0)%nat /\
  (Todo.priority <$> todos step1) = [medium] /\
  (length (todos step2), pending step2, finished step2) = (1, 0, 1)%nat /\
  (length (todos step3), pending step3, finished step3) = (0, 0, 0)%nat /\
  (Todo.delete_flag <$> table step3) = [true].
Proof. repeat split. Qed.

(** * Further properties of the page *)

(** ** Rendering *)

(** X1. The two counters of the statistics line split the local list:
    open and finished entries add up to the number of entries shown. *)
Theorem stats_partition (w : World) :
  (pending w + finished w)%nat = length (todos w).
Proof.
  unfold pending, finished. induction (todos w) as [|t l IH]; simpl; [done|].
  destruct (Todo.completed t); simpl; lia.
Qed.

(** X2. The icon in front of an entry is unambiguous: two entries with
    the same icon are both finished or both open, and two open entries
    with the same icon have the same priority. *)
Theorem icon_unambiguous (a b : Todo.t) :
  icon a = icon b ->
  Todo.completed a = Todo.completed b /\
  (Todo.completed a = false -> Todo.priority a = Todo.priority b).
Proof.
  unfold icon.
  destruct (Todo.completed a), (Todo.completed b),
           (Todo.priority a), (Todo.priority b);
    simpl; intros H; split; try done; discriminate H.
Qed.

Lemma icon_unambiguous_witness :
  icon milk = icon (Todo.mk "id-7" [97]%N false medium false 70 70) /\
  Todo.priority milk = medium.
Proof.
  split; [reflexivity|].
  exact (proj2 (icon_unambiguous
                  (Todo.mk "id-7" [97]%N false medium false 70 70) milk
                  eq_refl) eq_refl).
Defined.

(** ** Failures *)

Lemma fetchTodos_requests (c : Supabase.Conn) (w : World) :
  requests (fetchTodos c w) = requests w ++ [ReqSelect active].
Proof.
  unfold fetchTodos, Supabase.select_eq_order.
  destruct (Supabase.fault c); reflexivity.
Qed.



(** X4. When the update of [toggleTodo] or [deleteTodo] goes through and
    the reload after it fails, the store has the change while the local
    list still shows the old rows, and the user gets the alert of
    [fetchTodos]. *)
Theorem update_ok_reload_failed
    (now : Z) (c cf : Supabase.Conn) (e : Supabase.PostgrestError)
    (id : string) (b : bool) (w : World) :
  Supabase.fault c = None ->
  Supabase.fault cf = Some e ->
  (table (toggleTodo now c cf id b w)
   = Supabase.update_where (setCompleted (negb b) now) (Supabase.EqId id)
                           (table w) /\
   todos (toggleTodo now c cf id b w) = todos w /\
   alerts (toggleTodo now c cf id b w)
   = alerts w ++ ["获取任务失败，请检查网络连接"]) /\
  (table (deleteTodo now c cf id w)
   = Supabase.update_where (softDelete now) (Supabase.EqId id) (table w) /\
   todos (deleteTodo now c cf id w) = todos w /\
   alerts (deleteTodo now c cf id w)
   = alerts w ++ ["获取任务失败，请检查网络连接"]).
Proof.
  intros Hc Hcf.
  rewrite (toggleTodo_ok _ _ _ _ _ _ Hc), (deleteTodo_ok _ _ _ _ _ Hc).
  rewrite !(fetchTodos_failed cf e _ Hcf). simpl. done.
Qed.

Lemma update_ok_reload_failed_witness :
  Supabase.fault up = None /\
  Supabase.fault down = Some (Supabase.mkError "Failed to fetch") /\
  Todo.delete_flag <$> table (deleteTodo 60 up down "id-1" loaded) = [true] /\
  todos (deleteTodo 60 up down "id-1" loaded) = [milk].
Proof.
  split; [reflexivity|]. split; [reflexivity|].
  pose proof (update_ok_reload_failed 60 up down
                (Supabase.mkError "Failed to fetch") "id-1" false loaded
                eq_refl eq_refl) as (_ & Htbl & Ht & _).
  split; [rewrite Htbl; reflexivity | exact Ht].
Defined.

(** ** Invariants of the table over any sequence of events *)

Lemma evolves_refl (r : Todo.t) : evolves r r.
Proof. unfold evolves. done. Qed.

Lemma evolves_trans (r1 r2 r3 : Todo.t) :
  evolves r1 r2 -> evolves r2 r3 -> evolves r1 r3.
Proof.
  unfold evolves.
  intros (Hi & Ht & Hp & Hc & Hd) (Hi' & Ht' & Hp' & Hc' & Hd').
  repeat split; try congruence. auto.
Qed.

Lemma rows_evolve_refl (tbl : list Todo.t) : rows_evolve tbl tbl.
Proof. intros k r Hk. eauto using evolves_refl. Qed.

Lemma rows_evolve_trans (t1 t2 t3 : list Todo.t) :
  rows_evolve t1 t2 -> rows_evolve t2 t3 -> rows_evolve t1 t3.
Proof.
  intros H12 H23 k r Hk.
  destruct (H12 k r Hk) as (r2 & Hk2 & He2).
  destruct (H23 k r2 Hk2) as (r3 & Hk3 & He3).
  eauto using evolves_trans.
Qed.

Lemma rows_evolve_app (tbl new : list Todo.t) : rows_evolve tbl (tbl ++ new).
Proof.
  intros k r Hk. exists r. split; [|apply evolves_refl].
  rewrite lookup_app_l; [done|]. by eapply lookup_lt_Some.
Qed.

Lemma rows_evolve_update (p : Patch.t) (f : Supabase.Filter)
    (tbl : list Todo.t) :
  Patch.delete_flag p <> Some false ->
  rows_evolve tbl (Supabase.update_where p f tbl).
Proof.
  intros Hp k r Hk. rewrite (update_where_lookup p f tbl k r Hk).
  eexists. split; [done|].
  destruct (Supabase.matches f r); [|apply evolves_refl].
  unfold evolves, Supabase.apply_patch. simpl. repeat split.
  intros Hd. rewrite Hd.
  destruct (Patch.delete_flag p) as [[|]|]; simpl; done.
Qed.

Lemma fetchTodos_rows (c : Supabase.Conn) (w : World) :
  rows_evolve (table w) (table (fetchTodos c w)).
Proof. rewrite fetchTodos_table. apply rows_evolve_refl. Qed.

Lemma addTodo_rows (now : Z) (c : Supabase.Conn) (w : World) :
  rows_evolve (table w) (table (addTodo now c w)).
Proof.
  unfold addTodo, Supabase.insert_select.
  destruct (truthy (trim (inputText w))); simpl; [|apply rows_evolve_refl].
  destruct (Supabase.fault c); simpl;
    [apply rows_evolve_refl | apply rows_evolve_app].
Qed.

Lemma toggleTodo_rows (now : Z) (c cf : Supabase.Conn) (id : string)
    (b : bool) (w : World) :
  rows_evolve (table w) (table (toggleTodo now c cf id b w)).
Proof.
  unfold toggleTodo, Supabase.update_eq.
  destruct (Supabase.fault c); simpl; [apply rows_evolve_refl|].
  rewrite fetchTodos_table. simpl. by apply rows_evolve_update.
Qed.

Lemma deleteTodo_rows (now : Z) (c cf : Supabase.Conn) (id : string)
    (w : World) :
  rows_evolve (table w) (table (deleteTodo now c cf id w)).
Proof.
  unfold deleteTodo, Supabase.update_eq.
  destruct (Supabase.fault c); simpl; [apply rows_evolve_refl|].
  rewrite fetchTodos_table. simpl. by apply rows_evolve_update.
Qed.

Lemma handle_rows (e : Event) (w : World) :
  rows_evolve (table w) (table (handle w e)).
Proof.
  destruct e; simpl.
  - apply fetchTodos_rows.
  - apply rows_evolve_refl.
  - apply rows_evolve_refl.
  - unfold keyPress. case_bool_decide;
      [apply addTodo_rows | apply rows_evolve_refl].
  - apply addTodo_rows.
  - unfold clickTodo. destruct (todos w !! k);
      [apply toggleTodo_rows | apply rows_evolve_refl].
  - unfold clickDelete. destruct (todos w !! k);
      [apply deleteTodo_rows | apply rows_evolve_refl].
Qed.

(** X5. Whatever the user does and whatever the store answers, a row of
    the table stays where it is and keeps its [id], [text], [priority]
    and [created_at]; a row that is soft-deleted stays soft-deleted. No
    sequence of events edits, moves, removes or undeletes a row. *)
Theorem run_keeps_rows (es : list Event) (w : World) (k : nat) (r : Todo.t) :
  table w !! k = Some r ->
  exists r', table (run es w) !! k = Some r' /\ evolves r r'.
Proof.
  revert w k r. unfold run.
  induction es as [|e es IH]; intros w k r Hk; simpl.
  - eauto using evolves_refl.
  - destruct (handle_rows e w k r Hk) as (r1 & Hk1 & He1).
    destruct (IH (handle w e) k r1 Hk1) as (r2 & Hk2 & He2).
    eauto using evolves_trans.
Qed.

Lemma run_keeps_rows_witness :
  table loaded !! 0%nat = Some milk /\
  exists r',
    table (run [ClickTodo 0 60 up up; ClickDelete 0 70 up up;
                ChangeInput buy_milk; ClickAdd 80 up] loaded) !! 0%nat
    = Some r' /\ evolves milk r'.
Proof.
  split; [reflexivity|].
  exact (run_keeps_rows
           [ClickTodo 0 60 up up; ClickDelete 0 70 up up;
            ChangeInput buy_milk; ClickAdd 80 up] loaded 0 milk eq_refl).
Defined.

(** ** Invariant of the requests over any sequence of events *)

Lemma fetchTodos_well_formed (c : Supabase.Conn) (w : World) :
  Forall well_formed (requests w) ->
  Forall well_formed (requests (fetchTodos c w)).
Proof.
  intros H. rewrite fetchTodos_requests.
  apply Forall_app. split; [done|]. by apply Forall_singleton.
Qed.

Lemma addTodo_well_formed (now : Z) (c : Supabase.Conn) (w : World) :
  Forall well_formed (requests w) ->
  Forall well_formed (requests (addTodo now c w)).
Proof.
  intros H. unfold addTodo, Supabase.insert_select.
  rewrite truthy_trim.
  destruct (blank (inputText w)) eqn:Hb; simpl; [done|].
  assert (Hq : well_formed
            (ReqInsert [NewTodo.mk (inputText w) false (priority w) false now])).
  { simpl. eexists. repeat split. exact Hb. }
  destruct (Supabase.fault c); simpl;
    apply Forall_app; split; try done; by apply Forall_singleton.
Qed.

Lemma toggleTodo_well_formed (now : Z) (c cf : Supabase.Conn) (id : string)
    (b : bool) (w : World) :
  Forall well_formed (requests w) ->
  Forall well_formed (requests (toggleTodo now c cf id b w)).
Proof.
  intros H. unfold toggleTodo, Supabase.update_eq.
  assert (Hq : well_formed
            (ReqUpdate (Patch.mk (Some (negb b)) None (Some now))
                       (Supabase.EqId id))).
  { simpl. repeat split; eauto. }
  destruct (Supabase.fault c); simpl.
  - apply Forall_app. split; [done|]. by apply Forall_singleton.
  - apply fetchTodos_well_formed. simpl.
    apply Forall_app. split; [done|]. by apply Forall_singleton.
Qed.

Lemma deleteTodo_well_formed (now : Z) (c cf : Supabase.Conn) (id : string)
    (w : World) :
  Forall well_formed (requests w) ->
  Forall well_formed (requests (deleteTodo now c cf id w)).
Proof.
  intros H. unfold deleteTodo, Supabase.update_eq.
  assert (Hq : well_formed
            (ReqUpdate (Patch.mk None (Some true) (Some now))
                       (Supabase.EqId id))).
  { simpl. repeat split; eauto. }
  destruct (Supabase.fault c); simpl.
  - apply Forall_app. split; [done|]. by apply Forall_singleton.
  - apply fetchTodos_well_formed. simpl.
    apply Forall_app. split; [done|]. by apply Forall_singleton.
Qed.

Lemma handle_well_formed (e : Event) (w : World) :
  Forall well_formed (requests w) ->
  Forall well_formed (requests (handle w e)).
Proof.
  intros H. destruct e; simpl; try done.
  - by apply fetchTodos_well_formed.
  - unfold keyPress. case_bool_decide; [by apply addTodo_well_formed | done].
  - by apply addTodo_well_formed.
  - unfold clickTodo. destruct (todos w !! k);
      [by apply toggleTodo_well_formed | done].
  - unfold clickDelete. destruct (todos w !! k);
      [by apply deleteTodo_well_formed | done].
Qed.

(** X6. From a freshly mounted page, every request the page ever sends
    is a read of the active rows, an insert of a single open, undeleted
    row whose text is not blank, or an update addressed by id that stamps
    [updated_at] and never clears [delete_flag]: no blank todo and no
    undelete can reach the store, whatever the events. *)
Theorem run_requests_well_formed (es : list Event) (tbl : list Todo.t) :
  Forall well_formed (requests (run es (mount tbl))).
Proof.
  assert (H : forall w, Forall well_formed (requests w) ->
                        Forall well_formed (requests (run es w))).
  { unfold run. induction es as [|e es IH]; intros w Hw; simpl; [done|].
    apply IH. by apply handle_well_formed. }
  apply H. simpl. constructor.
Qed.

(** ** Sorting and filtering under a change of the rows

    A map on rows that keeps what the order looks at commutes with the
    merge sort; one that keeps what a filter looks at commutes with the
    filter. *)

Section SortMap.
Context {A : Type} (R : relation A) `{!RelDecision R} (g : A -> A).
Hypothesis g_keeps : forall x y, R (g x) (g y) <-> R x y.


Local Abbreviation on_stack :=
  (fmap (M:=list) (fmap (M:=option) (fmap (M:=list) g))).





End SortMap.


Lemma filter_Permutation_bool {A} (f : A -> bool) (l l' : list A) :
  l ≡ₚ l' -> List.filter f l ≡ₚ List.filter f l'.
Proof.
  induction 1 as [|x l l' _ IH|x y l|l l' l'' _ IH1 _ IH2]; simpl.
  - done.
  - destruct (f x); by rewrite IH.
  - destruct (f x), (f y); try done. apply perm_swap.
  - by rewrite IH1.
Qed.

(** ** The list on screen after a toggle or a delete *)













(** ** Deleting *)

Lemma softDelete_filter (i : string) (now : Z) (tbl : list Todo.t) :
  List.filter (Supabase.matches active)
    (Supabase.update_where (softDelete now) (Supabase.EqId i) tbl)
  = List.filter (other_than i) (List.filter (Supabase.matches active) tbl).
Proof.
  unfold Supabase.update_where.
  induction tbl as [|r tbl IH]; [done|].
  rewrite fmap_cons. cbn [List.filter]. rewrite IH. clear IH.
  unfold other_than. simpl.
  destruct (bool_decide (Todo.id r = i)) eqn:Hi; simpl.
  - destruct (bool_decide (Todo.delete_flag r = false)); simpl; [|done].
    by rewrite Hi.
  - destruct (bool_decide (Todo.delete_flag r = false)); simpl; [|done].
    by rewrite Hi.
Qed.

(** X9. On a page whose list mirrors the store, a successful delete
    takes the entries with the clicked id out of the list and nothing
    else: the new list is an arrangement of the old one without them,
    still newest first. *)
Theorem deleteTodo_removes_entry
    (now : Z) (c cf : Supabase.Conn) (id : string) (w : World) :
  Supabase.fault c = None ->
  Supabase.fault cf = None ->
  mirrors w ->
  todos (deleteTodo now c cf id w) ≡ₚ List.filter (other_than id) (todos w) /\
  StronglySorted Supabase.newer_first (todos (deleteTodo now c cf id w)).
Proof.
  intros Hc Hcf Hm.
  rewrite (deleteTodo_ok _ _ _ _ _ Hc), (fetchTodos_ok _ _ Hcf). simpl.
  split; [|apply select_where_sorted].
  rewrite Hm. unfold listActive, Supabase.select_where.
  rewrite merge_sort_Permutation, softDelete_filter.
  apply filter_Permutation_bool. symmetry. apply merge_sort_Permutation.
Qed.

Lemma deleteTodo_removes_entry_witness :
  Supabase.fault up = None /\
  mirrors (fetchTodos up (mount [milk; eggs; gone])) /\
  todos (deleteTodo 60 up up "id-2" (fetchTodos up (mount [milk; eggs; gone])))
  ≡ₚ [milk].
Proof.
  split; [reflexivity|].
  assert (Hm : mirrors (fetchTodos up (mount [milk; eggs; gone])))
    by reflexivity.
  split; [exact Hm|].
  exact (proj1 (deleteTodo_removes_entry 60 up up "id-2" _
                  eq_refl eq_refl Hm)).
Defined.

Lemma deleteTodo_not_shown (now : Z) (c cf : Supabase.Conn) (id : string)
    (w : World) :
  Supabase.fault c = None ->
  Supabase.fault cf = None ->
  shown id (deleteTodo now c cf id w) = None.
Proof.
  intros Hc Hcf. unfold shown.
  destruct (List.find _ _) as [t|] eqn:Ht; [exfalso|done].
  apply find_some in Ht as [Hin Hid].
  rewrite (deleteTodo_ok _ _ _ _ _ Hc), (fetchTodos_ok _ _ Hcf) in Hin.
  simpl in Hin. unfold listActive, Supabase.select_where in Hin.
  apply list_elem_of_In in Hin.
  rewrite merge_sort_Permutation, softDelete_filter in Hin.
  apply list_elem_of_In, filter_In in Hin as [_ Hne].
  unfold other_than in Hne. rewrite Hid in Hne. discriminate.
Qed.

(** X10. Once an entry has been deleted successfully, a toggle of that
    id finds nothing to click: it sends no request and changes nothing,
    whatever the store would have answered. *)
Theorem deleteTodo_then_toggle_is_noop
    (now now' : Z) (c cf c' cf' : Supabase.Conn) (id : string) (w : World) :
  Supabase.fault c = None ->
  Supabase.fault cf = None ->
  toggle now' c' cf' id (deleteTodo now c cf id w) = deleteTodo now c cf id w.
Proof.
  intros Hc Hcf. unfold toggle.
  by rewrite (deleteTodo_not_shown now c cf id w Hc Hcf).
Qed.

Lemma deleteTodo_then_toggle_is_noop_witness :
  Supabase.fault up = None /\
  toggle 70 up up "id-1" (deleteTodo 60 up up "id-1" loaded)
  = deleteTodo 60 up up "id-1" loaded.
Proof.
  split; [reflexivity|].
  exact (deleteTodo_then_toggle_is_noop 60 70 up up up up "id-1" loaded
           eq_refl eq_refl).
Defined.

(** ** The list on screen over a run without failures *)






(** ** Submitting twice *)



(** X13. A failed [addTodo] keeps the text in the input field, so that
    submitting again once the store answers inserts that same text: the
    table then holds exactly one new row, carrying the text and priority
    of the first attempt, and the user has seen one alert. *)
Theorem addTodo_retry_after_failure
    (now now' : Z) (c c' : Supabase.Conn) (e : Supabase.PostgrestError)
    (w : World) :
  trim (inputText w) <> [] ->
  Supabase.fault c = Some e ->
  Supabase.fault c' = None ->
  table (addTodo now' c' (addTodo now c w))
  = table w ++ [submitted now' c' w] /\
  todos (addTodo now' c' (addTodo now c w))
  = submitted now' c' w :: todos w /\
  inputText (addTodo now' c' (addTodo now c w)) = [] /\
  alerts (addTodo now' c' (addTodo now c w)) = alerts w ++ ["添加失败，请重试"].
Proof.
  intros Ht Hc Hc'.
  rewrite (addTodo_failed now c e w Ht Hc).
  rewrite addTodo_ok; [|exact Ht|exact Hc']. done.
Qed.

Lemma addTodo_retry_after_failure_witness :
  trim (inputText (typing padded low)) <> [] /\
  Supabase.fault down = Some (Supabase.mkError "Failed to fetch") /\
  Supabase.fault up = None /\
  Todo.text <$> table (addTodo 60 up (addTodo 50 down (typing padded low)))
  = [Todo.text eggs; padded].
Proof.
  split; [vm_compute; discriminate|].
  split; [reflexivity|]. split; [reflexivity|].
  destruct (addTodo_retry_after_failure 50 60 down up
              (Supabase.mkError "Failed to fetch") (typing padded low))
    as (Htbl & _); [vm_compute; discriminate | reflexivity | reflexivity |].
  rewrite Htbl. reflexivity.
Defined.
